(** * read_lines.py: printing a range of lines of a text file

    A shallow embedding of [src/read_lines.py] and the properties of its
    two entry points: the function [read_lines] and the script body run
    under [__name__ == "__main__"].

    Standard output is a buffer that every [print] appends to; a Python
    exception that nobody catches ends the run with the buffer as it
    stands.  Both are carried by the small monad [io] below. *)

From Stdlib Require Import ZArith List String Ascii Lia Bool.
From Stdlib Require Import DecimalString.
Import ListNotations.

Local Open Scope string_scope.
Local Open Scope Z_scope.

(** ** Python values and effects *)

(** The built-in exceptions this program can meet.  [FileNotFoundError]
    has no built-in subclass, so [except FileNotFoundError] catches that
    constructor and nothing else. *)
Inductive exn : Type :=
| FileNotFoundError
| PermissionError
| IsADirectoryError
| NotADirectoryError
| OSError
| UnicodeDecodeError
| ValueError
| IndexError.

Definition exn_eqb (a b : exn) : bool :=
  match a, b with
  | FileNotFoundError, FileNotFoundError
  | PermissionError, PermissionError
  | IsADirectoryError, IsADirectoryError
  | NotADirectoryError, NotADirectoryError
  | OSError, OSError
  | UnicodeDecodeError, UnicodeDecodeError
  | ValueError, ValueError
  | IndexError, IndexError => true
  | _, _ => false
  end.

(** How a piece of Python code ends: it falls through (or returns) with a
    value, or an exception leaves it. *)
Inductive outcome (A : Type) : Type :=
| Returned (a : A)
| Raised (e : exn).
Arguments Returned {A} a.
Arguments Raised {A} e.

(** A computation takes the text written to standard output so far and
    gives the text after it, with its outcome. *)
Definition io (A : Type) : Type := string -> string * outcome A.

Definition ret {A} (a : A) : io A := fun out => (out, Returned a).

Definition raise {A} (e : exn) : io A := fun out => (out, Raised e).

Definition bind {A B} (m : io A) (k : A -> io B) : io B :=
  fun out =>
    match m out with
    | (out', Returned a) => k a out'
    | (out', Raised e) => (out', Raised e)
    end.

Notation "x <- m ;; k" := (bind m (fun x => k))
  (at level 61, m at next level, right associativity).
Notation "m ;; k" := (bind m (fun _ => k))
  (at level 61, right associativity).

(** [try: body except e: handler] for a single exception class. *)
Definition try_except {A} (body : io A) (e : exn) (handler : io A) : io A :=
  fun out =>
    match body out with
    | (out', Raised e') => if exn_eqb e' e then handler out' else (out', Raised e')
    | r => r
    end.

(** A run starts with nothing written. *)
Definition run {A} (m : io A) : string * outcome A := m "".

Definition newline : string := String (ascii_of_nat 10) "".

(** [print(s, end=e)] *)
Definition print_end (s e : string) : io unit :=
  fun out => (out ++ s ++ e, Returned tt).

(** [print(s)] *)
Definition print (s : string) : io unit := print_end s newline.

(** [str(n)] for an [int], as an f-string field formats it. *)
Definition str (n : Z) : string := NilZero.string_of_int (Z.to_int n).

(** [l[i]] on a list: a negative index counts from the end, and an index
    outside [-len(l) .. len(l)-1] raises [IndexError]. *)
Definition getitem {A} (l : list A) (i : Z) : io A :=
  let n := Z.of_nat (List.length l) in
  let j := if i <? 0 then i + n else i in
  if (j <? 0) || (n <=? j) then raise IndexError
  else match nth_error l (Z.to_nat j) with
       | Some x => ret x
       | None => raise IndexError
       end.

(** [range(a, b)] *)
Definition range (a b : Z) : list Z :=
  map (fun k => a + Z.of_nat k) (seq 0 (Z.to_nat (b - a))).

(** [for i in l: body(i)] *)
Fixpoint for_each (l : list Z) (body : Z -> io unit) : io unit :=
  match l with
  | [] => ret tt
  | i :: l' => body i ;; for_each l' body
  end.

(** ** The file system *)

(** What [open(filepath, 'r')] followed by [f.readlines()] gives for a
    path: the list of the file's lines, each with its terminator (the last
    one may lack it), or the exception that [open] or the read raises. *)
Inductive read_result : Type :=
| Lines (ls : list string)
| Fails (e : exn).

Definition filesystem : Type := string -> read_result.

Definition open_readlines (fs : filesystem) (filepath : string) : io (list string) :=
  match fs filepath with
  | Lines ls => ret ls
  | Fails e => raise e
  end.

(** ** The program *)

Definition start_beyond_msg (start_line : Z) : string :=
  "Start line " ++ str start_line ++ " is beyond file length.".

Definition not_found_msg (filepath : string) : string :=
  "File " ++ filepath ++ " not found.".

Definition usage_msg : string :=
  "Usage: python read_lines.py <filepath> <start_line> <num_lines>".

(** The body of the [for] loop of [read_lines]:
    [print(f"{lines[i]}", end='')]. *)
Definition emit (lines : list string) (i : Z) : io unit :=
  line <- getitem lines i ;; print_end line "".

(** The body of the [try] block of [read_lines]. *)
Definition read_lines_body (fs : filesystem) (filepath : string)
    (start_line num_lines : Z) : io unit :=
  lines <- open_readlines fs filepath ;;
  let start_index := start_line - 1 in
  let end_index := start_index + num_lines in
  let len := Z.of_nat (List.length lines) in
  if len <=? start_index then
    print (start_beyond_msg start_line)
  else
    for_each (range start_index (Z.min end_index len)) (emit lines).

Definition read_lines (fs : filesystem) (filepath : string)
    (start_line num_lines : Z) : io unit :=
  try_except (read_lines_body fs filepath start_line num_lines)
    FileNotFoundError
    (print (not_found_msg filepath)).

Section Main.

(** The built-in [int] applied to a string: the integer it denotes, or
    [None] where Python raises [ValueError]. *)
Variable int_of_str : string -> option Z.

Definition int (s : string) : io Z :=
  match int_of_str s with
  | Some n => ret n
  | None => raise ValueError
  end.

(** The script body; [argv] is [sys.argv], program name first.  The
    arguments of the call are evaluated from left to right. *)
Definition main (fs : filesystem) (argv : list string) : io unit :=
  if Z.of_nat (List.length argv) <? 3 then
    print usage_msg
  else
    a1 <- getitem argv 1 ;;
    a2 <- getitem argv 2 ;;
    start_line <- int a2 ;;
    a3 <- getitem argv 3 ;;
    num_lines <- int a3 ;;
    read_lines fs a1 start_line num_lines.

End Main.

(** A reading of decimal literals, enough to run [main] on examples:
    an optional sign followed by one or more ASCII digits. *)
Fixpoint digits_value (acc : Z) (s : string) : option Z :=
  match s with
  | EmptyString => Some acc
  | String c s' =>
      let d := Z.of_nat (nat_of_ascii c) - 48 in
      if (0 <=? d) && (d <=? 9) then digits_value (10 * acc + d) s' else None
  end.

Definition decimal_int (s : string) : option Z :=
  match s with
  | EmptyString => None
  | String "-" EmptyString => None
  | String "+" EmptyString => None
  | String "-" s' => option_map Z.opp (digits_value 0 s')
  | String "+" s' => digits_value 0 s'
  | _ => digits_value 0 s
  end.

(** ** Example inputs *)

(** A file system with one three-line file, [a.txt]. *)
Definition abc_lines : list string :=
  ["one" ++ newline; "two" ++ newline; "three" ++ newline].

Definition abc_fs : filesystem :=
  fun p => if String.eqb p "a.txt" then Lines abc_lines else Fails FileNotFoundError.

(** A file system where [empty.txt] exists and has no line, and
    [secret.txt] exists and may not be read. *)
Definition other_fs : filesystem :=
  fun p =>
    if String.eqb p "empty.txt" then Lines []
    else if String.eqb p "secret.txt" then Fails PermissionError
    else abc_fs p.

(** A file system where [a.txt] is a regular file, so that a path
    through it, [a.txt/x], names nothing: opening it raises
    [NotADirectoryError]. *)
Definition nested_fs : filesystem :=
  fun p =>
    if String.eqb p "a.txt/x" then Fails NotADirectoryError else abc_fs p.

(** ** Vocabulary of the properties *)

(** A path names no existing file when opening it fails because nothing
    has that name: there is no such entry ([FileNotFoundError]), or a
    directory component of the path is not a directory
    ([NotADirectoryError]). *)
Definition names_no_file (fs : filesystem) (filepath : string) : bool :=
  match fs filepath with
  | Fails FileNotFoundError | Fails NotADirectoryError => true
  | _ => false
  end.

(** The text printed when the given lines are written one after the
    other with nothing in between. *)
Definition text (ls : list string) : string := fold_right append "" ls.

(** The line that [lines[i]] denotes when [i] is a valid index. *)
Definition line_at (lines : list string) (i : Z) : string :=
  nth (Z.to_nat (if i <? 0 then i + Z.of_nat (List.length lines) else i)) lines "".

(** * Properties *)

(** ** Strings and ranges *)

Lemma append_nil_r (s : string) : s ++ "" = s.
Proof. induction s as [|c s IH]; simpl; [reflexivity | now rewrite IH]. Qed.

Lemma append_assoc (s t u : string) : (s ++ t) ++ u = s ++ (t ++ u).
Proof. induction s as [|c s IH]; simpl; [reflexivity | now rewrite IH]. Qed.

Lemma text_app (xs ys : list string) : text (xs ++ ys) = text xs ++ text ys.
Proof.
  induction xs as [|x xs IH]; simpl; [reflexivity|].
  now rewrite IH, append_assoc.
Qed.

Lemma range_nil (a b : Z) : b <= a -> range a b = [].
Proof.
  intros H. unfold range.
  replace (Z.to_nat (b - a)) with 0%nat by lia. reflexivity.
Qed.

Lemma range_cons (a b : Z) : a < b -> range a b = a :: range (a + 1) b.
Proof.
  intros H. unfold range.
  replace (Z.to_nat (b - a)) with (S (Z.to_nat (b - (a + 1)))) by lia.
  simpl. f_equal; [lia|].
  rewrite <- seq_shift, map_map.
  apply map_ext. intros k. lia.
Qed.

Lemma range_split (a m b : Z) :
  a <= m <= b -> range a b = (range a m ++ range m b)%list.
Proof.
  intros H.
  remember (Z.to_nat (m - a)) as n eqn:En.
  revert a En H. induction n as [|n IH]; intros a En H.
  - assert (a = m) by lia. subst a.
    now rewrite (range_nil m m) by lia.
  - rewrite (range_cons a b), (range_cons a m) by lia.
    simpl. f_equal. apply IH; lia.
Qed.

(** ** Indexing and the loop *)

Lemma getitem_valid {A} (l : list A) (i : Z) (d : A) :
  - Z.of_nat (List.length l) <= i < Z.of_nat (List.length l) ->
  getitem l i =
  ret (nth (Z.to_nat (if i <? 0 then i + Z.of_nat (List.length l) else i)) l d).
Proof.
  intros H. unfold getitem. cbv zeta.
  set (n := Z.of_nat (List.length l)) in *.
  set (j := if i <? 0 then i + n else i).
  assert (Hj : 0 <= j < n).
  { subst j. destruct (Z.ltb_spec i 0); lia. }
  replace ((j <? 0) || (n <=? j))%bool with false
    by (symmetry; apply orb_false_iff; split; [apply Z.ltb_ge | apply Z.leb_gt]; lia).
  assert (Hn : (Z.to_nat j < List.length l)%nat) by lia.
  destruct (nth_error l (Z.to_nat j)) as [x|] eqn:E.
  - now rewrite (nth_error_nth _ _ d E).
  - apply nth_error_None in E. lia.
Qed.

Lemma getitem_out_of_range {A} (l : list A) (i : Z) :
  i < - Z.of_nat (List.length l) \/ Z.of_nat (List.length l) <= i ->
  getitem l i = raise IndexError.
Proof.
  intros H. unfold getitem. cbv zeta.
  destruct (Z.ltb_spec i 0) as [Hi|Hi].
  - destruct H as [H|H]; [|lia].
    replace (i + Z.of_nat (List.length l) <? 0) with true
      by (symmetry; apply Z.ltb_lt; lia).
    reflexivity.
  - destruct H as [H|H]; [lia|].
    replace (Z.of_nat (List.length l) <=? i) with true
      by (symmetry; apply Z.leb_le; lia).
    now rewrite orb_true_r.
Qed.

Lemma emit_valid (lines : list string) (i : Z) (out : string) :
  - Z.of_nat (List.length lines) <= i < Z.of_nat (List.length lines) ->
  emit lines i out = (out ++ line_at lines i, Returned tt).
Proof.
  intros H. unfold emit, bind.
  rewrite (getitem_valid lines i "" H).
  unfold ret, print_end, line_at. now rewrite append_nil_r.
Qed.

(** A loop over valid indices writes the lines they denote, in order. *)
Lemma for_each_emit (lines : list string) (idx : list Z) (out : string) :
  Forall (fun i => - Z.of_nat (List.length lines) <= i < Z.of_nat (List.length lines)) idx ->
  for_each idx (emit lines) out =
  (out ++ text (map (line_at lines) idx), Returned tt).
Proof.
  intros H. revert out.
  induction H as [|i idx Hi _ IH]; intros out; simpl.
  - unfold ret. now rewrite append_nil_r.
  - unfold bind. rewrite (emit_valid lines i out Hi).
    rewrite IH. now rewrite append_assoc.
Qed.

Lemma range_bounds (a b i : Z) : In i (range a b) -> a <= i < b.
Proof.
  unfold range. rewrite in_map_iff.
  intros [k [<- Hk]]. apply in_seq in Hk. lia.
Qed.

Lemma skipn_nth_error {A} (l : list A) (n : nat) (x : A) :
  nth_error l n = Some x -> skipn n l = x :: skipn (S n) l.
Proof.
  revert n. induction l as [|y l IH]; intros [|n] E; simpl in E; try discriminate.
  - now inversion E.
  - apply (IH n E).
Qed.
Arguments skipn_nth_error {A} l {n x} _.

(** Lines read at the non-negative indices [a .. b-1] are a slice. *)
Lemma slice_nonneg (lines : list string) (a b : Z) :
  0 <= a -> b <= Z.of_nat (List.length lines) ->
  map (line_at lines) (range a b) =
  firstn (Z.to_nat (b - a)) (skipn (Z.to_nat a) lines).
Proof.
  intros Ha Hb.
  remember (Z.to_nat (b - a)) as n eqn:En.
  revert a En Ha. induction n as [|n IH]; intros a En Ha.
  - rewrite range_nil by lia. reflexivity.
  - rewrite range_cons by lia. simpl map.
    rewrite (IH (a + 1)) by lia.
    assert (Hlt : (Z.to_nat a < List.length lines)%nat) by lia.
    destruct (nth_error lines (Z.to_nat a)) as [x|] eqn:E;
      [|apply nth_error_None in E; lia].
    unfold line_at.
    replace (a <? 0) with false by (symmetry; apply Z.ltb_ge; lia).
    rewrite (nth_error_nth _ _ "" E).
    replace (Z.to_nat (a + 1)) with (S (Z.to_nat a)) by lia.
    now rewrite (skipn_nth_error lines E).
Qed.

(** Lines read at the negative indices [a .. b-1] are a slice counted
    from the end. *)
Lemma slice_neg (lines : list string) (a b : Z) :
  - Z.of_nat (List.length lines) <= a -> b <= 0 ->
  map (line_at lines) (range a b) =
  firstn (Z.to_nat (b - a))
    (skipn (Z.to_nat (a + Z.of_nat (List.length lines))) lines).
Proof.
  intros Ha Hb.
  set (n := Z.of_nat (List.length lines)) in *.
  replace (b - a) with (b + n - (a + n)) by lia.
  rewrite <- (slice_nonneg lines (a + n) (b + n)) by lia.
  unfold range.
  replace (Z.to_nat (b + n - (a + n))) with (Z.to_nat (b - a)) by lia.
  rewrite !map_map. apply map_ext_in.
  intros k Hk. apply in_seq in Hk.
  unfold line_at. fold n.
  replace (a + Z.of_nat k <? 0) with true by (symmetry; apply Z.ltb_lt; lia).
  replace (a + n + Z.of_nat k <? 0) with false by (symmetry; apply Z.ltb_ge; lia).
  f_equal. lia.
Qed.

(** ** The two branches of [read_lines] on a file that can be read *)

Lemma for_each_emit_raises (lines : list string) (idx : list Z)
    (out out' : string) (e : exn) :
  for_each idx (emit lines) out = (out', Raised e) -> e = IndexError.
Proof.
  revert out. induction idx as [|i idx IH]; intros out; simpl.
  - unfold ret. discriminate.
  - unfold bind at 1.
    destruct (emit lines i out) as [o [[]|e0]] eqn:E.
    + apply IH.
    + intros H. inversion H; subst e0. clear H.
      unfold emit, bind, getitem in E. cbv zeta in E.
      destruct (_ || _)%bool.
      * unfold raise in E. now inversion E.
      * destruct (nth_error lines _); unfold ret, raise, print_end in E;
          now inversion E.
Qed.

Lemma read_lines_existing (fs : filesystem) (filepath : string)
    (ls : list string) (start_line num_lines : Z) (out : string) :
  fs filepath = Lines ls ->
  read_lines fs filepath start_line num_lines out =
  (if Z.of_nat (List.length ls) <=? start_line - 1 then
     print (start_beyond_msg start_line)
   else
     for_each (range (start_line - 1)
                 (Z.min (start_line - 1 + num_lines) (Z.of_nat (List.length ls))))
       (emit ls)) out.
Proof.
  intros H.
  unfold read_lines, try_except, read_lines_body, bind, open_readlines.
  rewrite H. unfold ret. cbv zeta.
  destruct (Z.of_nat (List.length ls) <=? start_line - 1).
  - reflexivity.
  - destruct (for_each _ _ out) as [o [a|e]] eqn:E; [reflexivity|].
    apply for_each_emit_raises in E. now subst e.
Qed.

Lemma read_lines_failing (fs : filesystem) (filepath : string) (e : exn)
    (start_line num_lines : Z) (out : string) :
  fs filepath = Fails e ->
  read_lines fs filepath start_line num_lines out =
  if exn_eqb e FileNotFoundError
  then (out ++ not_found_msg filepath ++ newline, Returned tt)
  else (out, Raised e).
Proof.
  intros H.
  unfold read_lines, try_except, read_lines_body, bind, open_readlines.
  rewrite H. reflexivity.
Qed.

(** The output of [read_lines] depends on the file system only through
    the file it is asked to read. *)
Lemma read_lines_ext (fs fs' : filesystem) (filepath : string)
    (start_line num_lines : Z) (out : string) :
  fs filepath = fs' filepath ->
  read_lines fs filepath start_line num_lines out =
  read_lines fs' filepath start_line num_lines out.
Proof.
  intros H.
  unfold read_lines, try_except, read_lines_body, bind, open_readlines.
  now rewrite H.
Qed.

Lemma exn_eqb_neq (e e' : exn) : e <> e' -> exn_eqb e e' = false.
Proof. destruct e, e'; simpl; congruence. Qed.

(** ** The script body with all three arguments present *)

Lemma main_three_args (parse : string -> option Z) (fs : filesystem)
    (prog a1 a2 a3 : string) (extras : list string) (out : string) :
  main parse fs (prog :: a1 :: a2 :: a3 :: extras) out =
  (start_line <- int parse a2 ;;
   num_lines <- int parse a3 ;;
   read_lines fs a1 start_line num_lines) out.
Proof.
  unfold main.
  replace (Z.of_nat (List.length (prog :: a1 :: a2 :: a3 :: extras)) <? 3)
    with false by (symmetry; apply Z.ltb_ge; simpl List.length; lia).
  rewrite (getitem_valid _ 1 ""), (getitem_valid _ 2 ""), (getitem_valid _ 3 "")
    by (simpl List.length; lia).
  reflexivity.
Qed.

(** * The claims *)

(** ** A start line inside the file *)

(** C1.  For a file of N lines, a start line [s] with [1 <= s <= N] and a
    count [c >= 0], [read_lines] returns normally having written exactly
    the lines at the 1-indexed positions [s .. s+c-1] that the file has:
    there are [min c (N - s + 1)] of them, the k-th one is the file's line
    at 0-indexed position [s - 1 + k], each is written as stored, with its
    terminator, and nothing is written between or after them. *)
Theorem read_lines_in_range (fs : filesystem) (filepath : string)
    (ls : list string) (s c : Z) :
  fs filepath = Lines ls ->
  1 <= s <= Z.of_nat (List.length ls) ->
  0 <= c ->
  let emitted := firstn (Z.to_nat c) (skipn (Z.to_nat (s - 1)) ls) in
  run (read_lines fs filepath s c) = (text emitted, Returned tt) /\
  Z.of_nat (List.length emitted) = Z.min c (Z.of_nat (List.length ls) - s + 1) /\
  forall k : nat, (k < List.length emitted)%nat ->
    nth_error emitted k = nth_error ls (Z.to_nat (s - 1) + k).
Proof.
  intros Hfs Hs Hc emitted.
  set (N := Z.of_nat (List.length ls)) in *.
  assert (Hlen : List.length emitted = Z.to_nat (Z.min c (N - s + 1))).
  { subst emitted. rewrite length_firstn, length_skipn. lia. }
  split; [|split].
  - unfold run. rewrite (read_lines_existing _ _ _ _ _ _ Hfs). fold N.
    replace (N <=? s - 1) with false by (symmetry; apply Z.leb_gt; lia).
    rewrite for_each_emit
      by (apply Forall_forall; intros i Hi; apply range_bounds in Hi; fold N; lia).
    rewrite slice_nonneg by (fold N; lia).
    simpl append. f_equal. f_equal. subst emitted.
    destruct (Z.le_ge_cases (s - 1 + c) N) as [Hle|Hge].
    + rewrite Z.min_l by lia. f_equal. lia.
    + rewrite Z.min_r by lia.
      rewrite !firstn_all2; [reflexivity | |]; rewrite length_skipn; lia.
  - lia.
  - intros k Hk. subst emitted.
    rewrite nth_error_firstn.
    replace (k <? Z.to_nat c)%nat with true.
    + now rewrite nth_error_skipn.
    + symmetry. apply Nat.ltb_lt.
      rewrite length_firstn in Hk. lia.
Qed.

Lemma read_lines_in_range_witness :
  run (read_lines abc_fs "a.txt" 2 2) =
  ("two" ++ newline ++ "three" ++ newline, Returned tt).
Proof.
  apply (read_lines_in_range abc_fs "a.txt" abc_lines 2 2);
    [reflexivity | simpl; lia | lia].
Defined.

(** C5.  With a start line inside the file and a count of zero nothing is
    written, neither a line nor a message, and the call returns. *)
Theorem read_lines_count_zero (fs : filesystem) (filepath : string)
    (ls : list string) (s : Z) :
  fs filepath = Lines ls ->
  1 <= s <= Z.of_nat (List.length ls) ->
  run (read_lines fs filepath s 0) = ("", Returned tt).
Proof.
  intros Hfs Hs. unfold run.
  rewrite (read_lines_existing _ _ _ _ _ _ Hfs).
  replace (Z.of_nat (List.length ls) <=? s - 1) with false
    by (symmetry; apply Z.leb_gt; lia).
  rewrite range_nil by lia. reflexivity.
Qed.

Lemma read_lines_count_zero_witness :
  run (read_lines abc_fs "a.txt" 3 0) = ("", Returned tt).
Proof.
  apply (read_lines_count_zero abc_fs "a.txt" abc_lines 3);
    [reflexivity | simpl; lia].
Defined.

(** ** A start line after the end of the file *)

(** C2.  For a file of N lines and a start line [s >= 1] with [s > N],
    whatever the count, [read_lines] writes the one line
    "Start line s is beyond file length." and returns normally. *)
Theorem read_lines_start_beyond (fs : filesystem) (filepath : string)
    (ls : list string) (s c : Z) :
  fs filepath = Lines ls ->
  1 <= s ->
  Z.of_nat (List.length ls) < s ->
  run (read_lines fs filepath s c) =
  ("Start line " ++ str s ++ " is beyond file length." ++ newline, Returned tt).
Proof.
  intros Hfs _ Hs. unfold run.
  rewrite (read_lines_existing _ _ _ _ _ _ Hfs).
  replace (Z.of_nat (List.length ls) <=? s - 1) with true
    by (symmetry; apply Z.leb_le; lia).
  unfold print, print_end, start_beyond_msg. simpl append at 1.
  now rewrite !append_assoc.
Qed.

Lemma read_lines_start_beyond_witness :
  run (read_lines abc_fs "a.txt" 5 1) =
  ("Start line 5 is beyond file length." ++ newline, Returned tt).
Proof.
  apply (read_lines_start_beyond abc_fs "a.txt" abc_lines 5 1);
    [reflexivity | lia | simpl; lia].
Defined.

(** C9.  On a file with no line every start line [s >= 1] is beyond the
    end: whatever the count, zero included, the message
    "Start line s is beyond file length." is written and nothing else. *)
Theorem read_lines_empty_file (fs : filesystem) (filepath : string) (s c : Z) :
  fs filepath = Lines [] ->
  1 <= s ->
  run (read_lines fs filepath s c) =
  ("Start line " ++ str s ++ " is beyond file length." ++ newline, Returned tt).
Proof.
  intros Hfs Hs. unfold run.
  rewrite (read_lines_existing _ _ _ _ _ _ Hfs).
  replace (Z.of_nat (List.length (@nil string)) <=? s - 1) with true
    by (symmetry; apply Z.leb_le; simpl; lia).
  unfold print, print_end, start_beyond_msg. simpl append at 1.
  now rewrite !append_assoc.
Qed.

Lemma read_lines_empty_file_witness :
  run (read_lines other_fs "empty.txt" 1 0) =
  ("Start line 1 is beyond file length." ++ newline, Returned tt).
Proof.
  apply (read_lines_empty_file other_fs "empty.txt" 1 0); [reflexivity | lia].
Defined.

(** ** A file that is not there *)

(** C3, as amended.  When opening the path raises [FileNotFoundError],
    [read_lines] writes the one line "File <path> not found." and returns
    normally, whatever the two integers are.  The [except] clause names
    that exception only: a path that names no file and fails to open in
    another way is not covered (see the counterexample below). *)
Theorem read_lines_not_found (fs : filesystem) (filepath : string) (s c : Z) :
  fs filepath = Fails FileNotFoundError ->
  run (read_lines fs filepath s c) =
  ("File " ++ filepath ++ " not found." ++ newline, Returned tt).
Proof.
  intros Hfs. unfold run.
  rewrite (read_lines_failing _ _ _ _ _ _ Hfs). simpl.
  unfold not_found_msg. simpl. now rewrite !append_assoc.
Qed.

Lemma read_lines_not_found_witness :
  run (read_lines abc_fs "missing.txt" 1 1) =
  ("File missing.txt not found." ++ newline, Returned tt).
Proof.
  apply (read_lines_not_found abc_fs "missing.txt" 1 1). reflexivity.
Defined.

(** C3, as stated, fails.  Not every path that names no existing file
    gives the message: [a.txt/x], where [a.txt] is a regular file, names
    nothing, and opening it raises [NotADirectoryError], which the
    [except FileNotFoundError] clause does not catch; nothing is written
    and the exception reaches the caller. *)
Lemma read_lines_not_found_counterexample :
  names_no_file nested_fs "a.txt/x" = true /\
  run (read_lines nested_fs "a.txt/x" 1 1) = ("", Raised NotADirectoryError) /\
  ~ (forall (fs : filesystem) (filepath : string) (s c : Z),
       names_no_file fs filepath = true ->
       run (read_lines fs filepath s c) =
       ("File " ++ filepath ++ " not found." ++ newline, Returned tt)).
Proof.
  split; [reflexivity|]. split; [reflexivity|].
  intros H.
  specialize (H nested_fs "a.txt/x" 1 1 eq_refl).
  vm_compute in H. discriminate.
Qed.

(** ** A start line below one *)

(** With [1 - N <= s <= 0] the start index is negative and still a valid
    index: the loop first reads from the end of the list, then goes on
    from its beginning. *)
Lemma read_lines_wraparound (fs : filesystem) (filepath : string)
    (ls : list string) (s c : Z) :
  fs filepath = Lines ls ->
  1 - Z.of_nat (List.length ls) <= s <= 0 ->
  0 <= c ->
  run (read_lines fs filepath s c) =
  (text (firstn (Z.to_nat c) (skipn (Z.to_nat (Z.of_nat (List.length ls) + s - 1)) ls))
   ++ text (firstn (Z.to_nat (s - 1 + c)) ls),
   Returned tt).
Proof.
  intros Hfs Hs Hc. unfold run.
  rewrite (read_lines_existing _ _ _ _ _ _ Hfs).
  set (N := Z.of_nat (List.length ls)) in *.
  replace (N <=? s - 1) with false by (symmetry; apply Z.leb_gt; lia).
  rewrite for_each_emit
    by (apply Forall_forall; intros i Hi; apply range_bounds in Hi; fold N; lia).
  simpl append. f_equal.
  destruct (Z.le_gt_cases (s - 1 + c) 0) as [Hneg|Hpos].
  - rewrite Z.min_l by lia.
    rewrite slice_neg by (fold N; lia). fold N.
    replace (Z.to_nat (s - 1 + c)) with 0%nat by lia.
    simpl firstn. simpl text. rewrite append_nil_r.
    do 2 f_equal; [lia | f_equal; lia].
  - rewrite (range_split (s - 1) 0) by lia.
    rewrite map_app, text_app.
    rewrite slice_neg by (fold N; lia). fold N.
    rewrite slice_nonneg by (fold N; lia).
    f_equal.
    + f_equal.
      replace (Z.to_nat (s - 1 + N)) with (Z.to_nat (N + s - 1)) by lia.
      rewrite !firstn_all2; [reflexivity | |]; rewrite length_skipn; lia.
    + f_equal. simpl skipn.
      destruct (Z.le_ge_cases (s - 1 + c) N) as [Hle|Hge].
      * rewrite Z.min_l by lia. f_equal. lia.
      * rewrite Z.min_r by lia.
        rewrite !firstn_all2; [reflexivity | |]; lia.
Qed.

(** C10.  A start line below one is not checked, and the negative start
    index counts from the end of the list.  On a file of [N >= 1] lines:
    with start line 0 and a count [c >= 1] the call writes line N, the
    last one, and then lines 1 to c-1 from the beginning (as many of them
    as the file has); with [1 - N <= s <= 0] and [c >= 1] the first line
    written is line [N + s], lines follow it, and the call returns
    normally: no message is written and no exception is raised. *)
Theorem read_lines_start_below_one (fs : filesystem) (filepath : string)
    (ls : list string) :
  fs filepath = Lines ls ->
  (1 <= List.length ls)%nat ->
  (forall c : Z, 1 <= c ->
     exists last_line : string,
       nth_error ls (List.length ls - 1) = Some last_line /\
       run (read_lines fs filepath 0 c) =
       (last_line ++ text (firstn (Z.to_nat (c - 1)) ls), Returned tt)) /\
  (forall s c : Z, 1 - Z.of_nat (List.length ls) <= s <= 0 -> 1 <= c ->
     exists first_line : string,
       nth_error ls (Z.to_nat (Z.of_nat (List.length ls) + s) - 1) = Some first_line /\
       run (read_lines fs filepath s c) =
       (first_line
        ++ text (firstn (Z.to_nat (c - 1))
                   (skipn (Z.to_nat (Z.of_nat (List.length ls) + s)) ls)
                 ++ firstn (Z.to_nat (s - 1 + c)) ls),
        Returned tt)).
Proof.
  intros Hfs HN.
  assert (General : forall s c : Z,
    1 - Z.of_nat (List.length ls) <= s <= 0 -> 1 <= c ->
    exists first_line : string,
      nth_error ls (Z.to_nat (Z.of_nat (List.length ls) + s) - 1) = Some first_line /\
      run (read_lines fs filepath s c) =
      (first_line
       ++ text (firstn (Z.to_nat (c - 1))
                  (skipn (Z.to_nat (Z.of_nat (List.length ls) + s)) ls)
                ++ firstn (Z.to_nat (s - 1 + c)) ls),
       Returned tt)).
  { intros s c Hs Hc.
    set (N := Z.of_nat (List.length ls)) in *.
    destruct (nth_error ls (Z.to_nat (N + s) - 1)) as [x|] eqn:E;
      [|apply nth_error_None in E; lia].
    exists x. split; [reflexivity|].
    rewrite (read_lines_wraparound fs filepath ls s c Hfs) by (fold N; lia).
    fold N. f_equal.
    replace (Z.to_nat (N + s - 1)) with (Z.to_nat (N + s) - 1)%nat by lia.
    rewrite (skipn_nth_error ls E).
    replace (Z.to_nat c) with (S (Z.to_nat (c - 1))) by lia.
    replace (S (Z.to_nat (N + s) - 1)) with (Z.to_nat (N + s)) by lia.
    simpl firstn. rewrite text_app. simpl text.
    now rewrite append_assoc. }
  split; [|exact General].
  intros c Hc.
  destruct (General 0 c) as [x [E R]]; [lia | exact Hc |].
  exists x. split.
  - rewrite <- E. f_equal. lia.
  - rewrite R, skipn_all2, firstn_nil, app_nil_l by lia.
    replace (0 - 1 + c) with (c - 1) by lia. reflexivity.
Qed.

(** X1.  Below [1 - N] the start index is no index of the list any
    more: with a count of at least one the first [lines[i]] raises
    [IndexError], which nothing catches, before anything is written.  On
    an empty file this is every start line below one. *)
Lemma read_lines_start_far_below (fs : filesystem) (filepath : string)
    (ls : list string) (s c : Z) :
  fs filepath = Lines ls ->
  s < 1 - Z.of_nat (List.length ls) ->
  1 <= c ->
  run (read_lines fs filepath s c) = ("", Raised IndexError).
Proof.
  intros Hfs Hs Hc. unfold run.
  rewrite (read_lines_existing _ _ _ _ _ _ Hfs).
  replace (Z.of_nat (List.length ls) <=? s - 1) with false
    by (symmetry; apply Z.leb_gt; lia).
  rewrite range_cons by lia. simpl for_each.
  unfold bind at 1. unfold emit at 1. unfold bind at 1.
  now rewrite getitem_out_of_range by lia.
Qed.

Lemma read_lines_start_below_one_witness :
  run (read_lines abc_fs "a.txt" 0 3) =
  ("three" ++ newline ++ "one" ++ newline ++ "two" ++ newline, Returned tt) /\
  run (read_lines abc_fs "a.txt" (-1) 2) =
  ("two" ++ newline ++ "three" ++ newline, Returned tt).
Proof.
  destruct (read_lines_start_below_one abc_fs "a.txt" abc_lines eq_refl)
    as [Zero Below]; [simpl; lia|].
  split.
  - destruct (Zero 3) as [x [E R]]; [lia|].
    simpl in E. injection E as <-. exact R.
  - destruct (Below (-1) 2) as [x [E R]]; [simpl; lia | lia |].
    simpl in E. injection E as <-. exact R.
Defined.

(** ** The script body *)

(** X8.  With no argument or one argument after the program name (a
    [sys.argv] of fewer than three entries) the usage line is printed
    and nothing else happens: the arguments are not parsed and no file
    is read. *)
Lemma main_usage (parse : string -> option Z) (fs : filesystem)
    (argv : list string) :
  (List.length argv < 3)%nat ->
  run (main parse fs argv) = (usage_msg ++ newline, Returned tt).
Proof.
  intros H. unfold run, main.
  replace (Z.of_nat (List.length argv) <? 3) with true
    by (symmetry; apply Z.ltb_lt; lia).
  reflexivity.
Qed.

Example main_one_argument :
  run (main decimal_int abc_fs ["read_lines.py"; "a.txt"]) =
  ("Usage: python read_lines.py <filepath> <start_line> <num_lines>" ++ newline,
   Returned tt).
Proof. apply main_usage. simpl. lia. Defined.

(** C4, on the code.  With exactly two arguments after the program name
    [len(sys.argv)] is 3, the test [len(sys.argv) < 3] fails, and the call
    is attempted: the usage line is not printed, and the run ends on
    [ValueError] when the second argument is not an integer and on the
    [IndexError] of [sys.argv[3]] when it is. *)
Theorem main_two_arguments (parse : string -> option Z) (fs : filesystem)
    (prog a1 a2 : string) :
  run (main parse fs [prog; a1; a2]) =
  ("", Raised match parse a2 with Some _ => IndexError | None => ValueError end).
Proof.
  unfold run, main. simpl.
  unfold bind, int. simpl.
  destruct (parse a2); reflexivity.
Qed.

Example main_two_arguments_a_txt :
  run (main decimal_int abc_fs ["read_lines.py"; "a.txt"; "1"]) =
  ("", Raised IndexError).
Proof. reflexivity. Qed.

(** C7.  With all three arguments present, an argument that [int] rejects
    ends the run on [ValueError] with nothing written; when both are
    integers and reading the file raises anything but
    [FileNotFoundError], that exception leaves [read_lines] and the
    script with nothing written. *)
Theorem unhandled_faults_propagate (parse : string -> option Z)
    (fs : filesystem) (prog a1 a2 a3 : string) (extras : list string) :
  (parse a2 = None \/ parse a3 = None ->
   run (main parse fs (prog :: a1 :: a2 :: a3 :: extras)) = ("", Raised ValueError)) /\
  (forall (s c : Z) (e : exn),
     fs a1 = Fails e -> e <> FileNotFoundError ->
     run (read_lines fs a1 s c) = ("", Raised e) /\
     (parse a2 = Some s -> parse a3 = Some c ->
      run (main parse fs (prog :: a1 :: a2 :: a3 :: extras)) = ("", Raised e))).
Proof.
  split.
  - intros H. unfold run. rewrite main_three_args.
    unfold bind, int.
    destruct (parse a2) as [s|]; [|reflexivity].
    destruct H as [H|H]; [discriminate|].
    now rewrite H.
  - intros s c e Hfs He.
    assert (R : run (read_lines fs a1 s c) = ("", Raised e)).
    { unfold run. rewrite (read_lines_failing _ _ _ _ _ _ Hfs).
      now rewrite (exn_eqb_neq _ _ He). }
    split; [exact R|].
    intros H2 H3. unfold run. rewrite main_three_args.
    unfold bind, int. rewrite H2, H3. exact R.
Qed.

Lemma unhandled_faults_propagate_witness :
  run (main decimal_int other_fs ["read_lines.py"; "a.txt"; "two"; "2"]) =
  ("", Raised ValueError) /\
  run (main decimal_int other_fs ["read_lines.py"; "secret.txt"; "1"; "2"]) =
  ("", Raised PermissionError).
Proof.
  split.
  - apply (unhandled_faults_propagate decimal_int other_fs
             "read_lines.py" "a.txt" "two" "2" []).
    left. reflexivity.
  - destruct (unhandled_faults_propagate decimal_int other_fs
                "read_lines.py" "secret.txt" "1" "2" []) as [_ Read].
    destruct (Read 1 2 PermissionError) as [_ Script];
      [reflexivity | discriminate |].
    apply Script; reflexivity.
Defined.

(** C8.  With three or more arguments after the program name the script
    calls [read_lines] on the first three, so two runs that agree on them
    and on the file they name write the same text and end the same way,
    whatever follows the third argument. *)
Theorem main_ignores_extras (parse : string -> option Z)
    (fs fs' : filesystem) (prog prog' a1 a2 a3 : string)
    (extras extras' : list string) :
  fs a1 = fs' a1 ->
  run (main parse fs (prog :: a1 :: a2 :: a3 :: extras)) =
  run (main parse fs' (prog' :: a1 :: a2 :: a3 :: extras')) /\
  (forall s c : Z, parse a2 = Some s -> parse a3 = Some c ->
     run (main parse fs (prog :: a1 :: a2 :: a3 :: extras)) =
     run (read_lines fs a1 s c)).
Proof.
  intros Hfs. unfold run. split.
  - rewrite !main_three_args. unfold bind.
    destruct (int parse a2 "") as [o [s|e]]; [|reflexivity].
    destruct (int parse a3 o) as [o' [c|e]]; [|reflexivity].
    now apply read_lines_ext.
  - intros s c H2 H3. rewrite main_three_args.
    unfold bind, int. now rewrite H2, H3.
Qed.

Lemma main_ignores_extras_witness :
  run (main decimal_int abc_fs ["read_lines.py"; "a.txt"; "2"; "2"; "x"; "y"]) =
  run (main decimal_int other_fs ["read_lines.py"; "a.txt"; "2"; "2"]).
Proof.
  exact (proj1 (main_ignores_extras decimal_int abc_fs other_fs
                  "read_lines.py" "read_lines.py" "a.txt" "2" "2" ["x"; "y"] []
                  eq_refl)).
Defined.

(** * Further properties of [read_lines] and of the script *)

(** ** What a call writes does not depend on what was written before *)

Lemma emit_cases (lines : list string) (i : Z) :
  exists (w : string) (r : outcome unit),
    (r = Returned tt \/ (r = Raised IndexError /\ w = "")) /\
    forall out, emit lines i out = (out ++ w, r).
Proof.
  unfold emit, bind, getitem. cbv zeta.
  destruct (_ || _)%bool.
  - exists "", (Raised IndexError). split; [now right|].
    intros out. unfold raise. now rewrite append_nil_r.
  - destruct (nth_error lines _) as [x|].
    + exists x, (Returned tt). split; [now left|].
      intros out. unfold ret, print_end. now rewrite append_nil_r.
    + exists "", (Raised IndexError). split; [now right|].
      intros out. unfold raise. now rewrite append_nil_r.
Qed.

Lemma for_each_emit_cases (lines : list string) (idx : list Z) :
  exists (w : string) (r : outcome unit),
    (r = Returned tt \/ r = Raised IndexError) /\
    forall out, for_each idx (emit lines) out = (out ++ w, r).
Proof.
  induction idx as [|i idx [w [r [Hr IH]]]].
  - exists "", (Returned tt). split; [now left|].
    intros out. simpl. unfold ret. now rewrite append_nil_r.
  - destruct (emit_cases lines i) as [w0 [r0 [[->|[-> ->]] E]]].
    + exists (w0 ++ w), r. split; [exact Hr|].
      intros out. simpl. unfold bind. rewrite E, IH.
      now rewrite append_assoc.
    + exists "", (Raised IndexError). split; [now right|].
      intros out. simpl. unfold bind. now rewrite E.
Qed.

(** Every call of [read_lines] appends one text to standard output, the
    same whatever the buffer holds. *)
Lemma read_lines_writes (fs : filesystem) (filepath : string) (s c : Z) :
  exists (w : string) (r : outcome unit),
    forall out, read_lines fs filepath s c out = (out ++ w, r).
Proof.
  destruct (fs filepath) as [ls|e] eqn:Hfs.
  - destruct (Z.of_nat (List.length ls) <=? s - 1) eqn:G.
    + exists (start_beyond_msg s ++ newline), (Returned tt). intros out.
      rewrite (read_lines_existing _ _ _ _ _ _ Hfs), G. reflexivity.
    + destruct (for_each_emit_cases ls
                  (range (s - 1) (Z.min (s - 1 + c) (Z.of_nat (List.length ls)))))
        as [w [r [_ E]]].
      exists w, r. intros out.
      rewrite (read_lines_existing _ _ _ _ _ _ Hfs), G. apply E.
  - destruct (exn_eqb e FileNotFoundError) eqn:G.
    + exists (not_found_msg filepath ++ newline), (Returned tt). intros out.
      rewrite (read_lines_failing _ _ _ _ _ _ Hfs), G. reflexivity.
    + exists "", (Raised e). intros out.
      rewrite (read_lines_failing _ _ _ _ _ _ Hfs), G.
      now rewrite append_nil_r.
Qed.

Lemma read_lines_frame (fs : filesystem) (filepath : string) (s c : Z)
    (out w : string) (r : outcome unit) :
  run (read_lines fs filepath s c) = (w, r) ->
  read_lines fs filepath s c out = (out ++ w, r).
Proof.
  destruct (read_lines_writes fs filepath s c) as [w' [r' E]].
  unfold run. rewrite (E ""), (E out). simpl append.
  intros H. now inversion H.
Qed.

(** ** The slice, on any buffer *)

Lemma read_lines_slice (fs : filesystem) (filepath : string)
    (ls : list string) (s c : Z) :
  fs filepath = Lines ls ->
  1 <= s <= Z.of_nat (List.length ls) ->
  0 <= c ->
  run (read_lines fs filepath s c) =
  (text (firstn (Z.to_nat c) (skipn (Z.to_nat (s - 1)) ls)), Returned tt).
Proof.
  intros Hfs Hs Hc. unfold run.
  rewrite (read_lines_existing _ _ _ _ _ _ Hfs).
  set (N := Z.of_nat (List.length ls)) in *.
  replace (N <=? s - 1) with false by (symmetry; apply Z.leb_gt; lia).
  rewrite for_each_emit
    by (apply Forall_forall; intros i Hi; apply range_bounds in Hi; fold N; lia).
  rewrite slice_nonneg by (fold N; lia).
  simpl append. do 2 f_equal.
  destruct (Z.le_ge_cases (s - 1 + c) N) as [Hle|Hge].
  - rewrite Z.min_l by lia. f_equal. lia.
  - rewrite Z.min_r by lia.
    rewrite !firstn_all2; [reflexivity | |]; rewrite length_skipn; lia.
Qed.

(** ** A start line far below one *)

Lemma read_lines_start_far_below_witness :
  run (read_lines abc_fs "a.txt" (-3) 1) = ("", Raised IndexError) /\
  run (read_lines other_fs "empty.txt" 0 1) = ("", Raised IndexError).
Proof.
  split.
  - apply (read_lines_start_far_below abc_fs "a.txt" abc_lines (-3) 1);
      [reflexivity | simpl; lia | lia].
  - apply (read_lines_start_far_below other_fs "empty.txt" [] 0 1);
      [reflexivity | simpl; lia | lia].
Defined.

(** ** Counts of zero or less, and calls in a row *)

(** X2.  A count of zero or less writes nothing and returns, for every
    start line that is not beyond the end of the file, also one below
    [1 - N]: the range of the loop is empty and no line is indexed. *)
Theorem read_lines_count_nonpositive (fs : filesystem) (filepath : string)
    (ls : list string) (s c : Z) :
  fs filepath = Lines ls ->
  s <= Z.of_nat (List.length ls) ->
  c <= 0 ->
  run (read_lines fs filepath s c) = ("", Returned tt).
Proof.
  intros Hfs Hs Hc. unfold run.
  rewrite (read_lines_existing _ _ _ _ _ _ Hfs).
  replace (Z.of_nat (List.length ls) <=? s - 1) with false
    by (symmetry; apply Z.leb_gt; lia).
  rewrite range_nil by lia. reflexivity.
Qed.

Lemma read_lines_count_nonpositive_witness :
  run (read_lines abc_fs "a.txt" (-7) (-2)) = ("", Returned tt).
Proof.
  apply (read_lines_count_nonpositive abc_fs "a.txt" abc_lines (-7) (-2));
    [reflexivity | simpl; lia | lia].
Defined.



(** ** Reading on *)

Lemma firstn_plus {A} (n m : nat) (l : list A) :
  firstn (n + m) l = (firstn n l ++ firstn m (skipn n l))%list.
Proof.
  revert l. induction n as [|n IH]; intros [|x l]; simpl.
  - reflexivity.
  - reflexivity.
  - now rewrite firstn_nil.
  - now rewrite IH.
Qed.

(** X5.  Reading [c1] lines from line [s] and then [c2] lines from line
    [s + c1] writes what one call for [c1 + c2] lines from line [s]
    writes, as long as the second call still starts inside the file
    ([s + c1 <= N]); when the first call reaches the end, the second
    one writes the message for a start line beyond it instead. *)
Theorem read_lines_paging (fs : filesystem) (filepath : string)
    (ls : list string) (s c1 c2 : Z) :
  fs filepath = Lines ls ->
  1 <= s -> 0 <= c1 -> 0 <= c2 ->
  s + c1 <= Z.of_nat (List.length ls) ->
  run (read_lines fs filepath s c1 ;; read_lines fs filepath (s + c1) c2) =
  run (read_lines fs filepath s (c1 + c2)).
Proof.
  intros Hfs Hs H1 H2 Hin.
  rewrite (read_lines_slice fs filepath ls s (c1 + c2) Hfs) by lia.
  unfold run at 1. unfold bind.
  pose proof (read_lines_slice fs filepath ls s c1 Hfs) as R1.
  unfold run in R1. rewrite R1 by lia.
  rewrite (read_lines_frame fs filepath (s + c1) c2 _ _ _
             (read_lines_slice fs filepath ls (s + c1) c2 Hfs
                ltac:(lia) ltac:(lia))).
  rewrite <- text_app. do 2 f_equal.
  replace (Z.to_nat (c1 + c2)) with (Z.to_nat c1 + Z.to_nat c2)%nat by lia.
  rewrite firstn_plus, skipn_skipn. do 3 f_equal. lia.
Qed.

Lemma read_lines_paging_witness :
  run (read_lines abc_fs "a.txt" 1 2 ;; read_lines abc_fs "a.txt" 3 4) =
  run (read_lines abc_fs "a.txt" 1 6).
Proof.
  apply (read_lines_paging abc_fs "a.txt" abc_lines 1 2 4);
    [reflexivity | lia | lia | lia | simpl; lia].
Defined.

(** X6.  A count that reaches the end of the file or goes past it reads
    to the end and is no error: from a start line [s] inside the file
    the lines [s .. N] are written, and from line 1 the whole file. *)
Theorem read_lines_to_end (fs : filesystem) (filepath : string)
    (ls : list string) (s c : Z) :
  fs filepath = Lines ls ->
  1 <= s <= Z.of_nat (List.length ls) ->
  Z.of_nat (List.length ls) - s + 1 <= c ->
  run (read_lines fs filepath s c) =
    (text (skipn (Z.to_nat (s - 1)) ls), Returned tt) /\
  (s = 1 -> run (read_lines fs filepath s c) = (text ls, Returned tt)).
Proof.
  intros Hfs Hs Hc.
  assert (R : run (read_lines fs filepath s c) =
              (text (skipn (Z.to_nat (s - 1)) ls), Returned tt)).
  { rewrite (read_lines_slice fs filepath ls s c Hfs) by lia.
    rewrite firstn_all2; [reflexivity|].
    rewrite length_skipn. lia. }
  split; [exact R|].
  intros ->. exact R.
Qed.

Lemma read_lines_to_end_witness :
  run (read_lines abc_fs "a.txt" 1 100) =
  ("one" ++ newline ++ "two" ++ newline ++ "three" ++ newline, Returned tt).
Proof.
  destruct (read_lines_to_end abc_fs "a.txt" abc_lines 1 100 eq_refl)
    as [_ Whole]; [simpl; lia | simpl; lia |].
  apply Whole. reflexivity.
Defined.

(** X7.  A start line [s] with [1 - N <= s <= 0] stands for line
    [N + s] as long as the range does not pass index 0: for a count of
    at most [1 - s] the call writes exactly what it writes for the start
    line [N + s]. *)
Theorem read_lines_negative_alias (fs : filesystem) (filepath : string)
    (ls : list string) (s c : Z) :
  fs filepath = Lines ls ->
  1 - Z.of_nat (List.length ls) <= s <= 0 ->
  0 <= c <= 1 - s ->
  run (read_lines fs filepath s c) =
  run (read_lines fs filepath (Z.of_nat (List.length ls) + s) c).
Proof.
  intros Hfs Hs Hc.
  rewrite (read_lines_wraparound fs filepath ls s c Hfs) by lia.
  rewrite (read_lines_slice fs filepath ls _ c Hfs) by lia.
  replace (Z.to_nat (s - 1 + c)) with 0%nat by lia.
  simpl firstn. simpl text. now rewrite append_nil_r.
Qed.

Lemma read_lines_negative_alias_witness :
  run (read_lines abc_fs "a.txt" (-1) 2) = run (read_lines abc_fs "a.txt" 2 2).
Proof.
  apply (read_lines_negative_alias abc_fs "a.txt" abc_lines (-1) 2);
    [reflexivity | simpl; lia | lia].
Defined.
